(** * yi-api: the client-side API binding ([src/api.ts])

    The module configures one axios instance and exports two asynchronous
    functions, [getDivinationInterpretation] and [addTodoItem].  Each builds
    an object literal, posts it through the instance, and either returns
    [response.data] or logs the failure with [console.error] and rethrows it.

    The development has three parts:
    - [JSDate]: the ECMAScript time-value arithmetic behind
      [new Date().toISOString()], with a reader for the produced format;
    - [Api]: JavaScript values, the axios instance, and the two functions as
      state-passing computations over clock, console and network trace;
    - [EventLoop]: the same two functions split at their [await], run under
      arbitrary interleavings of calls and response deliveries. *)

From Stdlib Require Import ZArith String Ascii List Lia Bool.
From stdpp Require Import base option gmap.
Import ListNotations.

(** ** ECMAScript dates *)

Module JSDate.
Local Open Scope Z_scope.

(** Time values are milliseconds since the epoch; ECMA-262 21.4.1. *)
Definition msPerSecond : Z := 1000.
Definition msPerMinute : Z := 60000.
Definition msPerHour : Z := 3600000.
Definition msPerDay : Z := 86400000.

(** The range of time values a [Date] can hold (TimeClip). *)
Definition maxTimeValue : Z := 8640000000000000.
Definition validTime (t : Z) : Prop := - maxTimeValue <= t <= maxTimeValue.

Definition Day (t : Z) : Z := t / msPerDay.
Definition TimeWithinDay (t : Z) : Z := t mod msPerDay.

Definition DaysInYear (y : Z) : Z :=
  if negb (y mod 4 =? 0) then 365
  else if negb (y mod 100 =? 0) then 366
  else if negb (y mod 400 =? 0) then 365
  else 366.

Definition DayFromYear (y : Z) : Z :=
  365 * (y - 1970) + (y - 1969) / 4 - (y - 1901) / 100 + (y - 1601) / 400.

Definition TimeFromYear (y : Z) : Z := msPerDay * DayFromYear y.

(** ECMA-262 defines [YearFromTime t] as the largest [y] with
    [TimeFromYear y <= t].  It is computed here from the mean length of the
    Gregorian year (146097 days in 400 years), which is off by at most one
    year, and then adjusted; [YearFromTime_spec] below shows that the result
    is the year of that definition. *)
Definition YearFromTime (t : Z) : Z :=
  let d := Day t in
  let y0 := 1970 + (400 * d) / 146097 in
  if d <? DayFromYear y0 then y0 - 1
  else if DayFromYear (y0 + 1) <=? d then y0 + 1
  else y0.

Definition InLeapYear (t : Z) : Z :=
  if DaysInYear (YearFromTime t) =? 366 then 1 else 0.

Definition DayWithinYear (t : Z) : Z := Day t - DayFromYear (YearFromTime t).

(** First day (within the year) of the month after month [m], 0-based. *)
Definition monthEnd (leap m : Z) : Z :=
  match m with
  | 0 => 31
  | 1 => 59 + leap
  | 2 => 90 + leap
  | 3 => 120 + leap
  | 4 => 151 + leap
  | 5 => 181 + leap
  | 6 => 212 + leap
  | 7 => 243 + leap
  | 8 => 273 + leap
  | 9 => 304 + leap
  | 10 => 334 + leap
  | _ => 365 + leap
  end.

Definition monthStart (leap m : Z) : Z :=
  if m =? 0 then 0 else monthEnd leap (m - 1).

Definition MonthFromTime (t : Z) : Z :=
  let d := DayWithinYear t in
  let leap := InLeapYear t in
  if d <? 31 then 0
  else if d <? 59 + leap then 1
  else if d <? 90 + leap then 2
  else if d <? 120 + leap then 3
  else if d <? 151 + leap then 4
  else if d <? 181 + leap then 5
  else if d <? 212 + leap then 6
  else if d <? 243 + leap then 7
  else if d <? 273 + leap then 8
  else if d <? 304 + leap then 9
  else if d <? 334 + leap then 10
  else 11.

Definition DateFromTime (t : Z) : Z :=
  let d := DayWithinYear t in
  let leap := InLeapYear t in
  match MonthFromTime t with
  | 0 => d + 1
  | 1 => d - 30
  | 2 => d - 58 - leap
  | 3 => d - 89 - leap
  | 4 => d - 119 - leap
  | 5 => d - 150 - leap
  | 6 => d - 180 - leap
  | 7 => d - 211 - leap
  | 8 => d - 242 - leap
  | 9 => d - 272 - leap
  | 10 => d - 303 - leap
  | _ => d - 333 - leap
  end.

Definition HourFromTime (t : Z) : Z := (t / msPerHour) mod 24.
Definition MinFromTime (t : Z) : Z := (t / msPerMinute) mod 60.
Definition SecFromTime (t : Z) : Z := (t / msPerSecond) mod 60.
Definition msFromTime (t : Z) : Z := t mod msPerSecond.

(** Decimal digits. *)
Definition digit (d : Z) : ascii := ascii_of_nat (48 + Z.to_nat d).

(** The [w] least significant decimal digits of [n], zero padded. *)
Fixpoint pad (w : nat) (n : Z) : string :=
  match w with
  | O => EmptyString
  | S w' => (pad w' (n / 10) ++ String (digit (n mod 10)) EmptyString)%string
  end.

(** Year part of the Date Time String Format: four digits for years 0 to
    9999, otherwise a sign and six digits (ECMA-262 21.4.1.32.1). *)
Definition yearString (y : Z) : string :=
  if (0 <=? y) && (y <=? 9999) then pad 4 y
  else if 0 <=? y then String "+" (pad 6 y)
  else String "-" (pad 6 (- y)).

(** [Date.prototype.toISOString] on a finite time value:
    YYYY-MM-DDTHH:mm:ss.sssZ in UTC. *)
Definition toISOString (t : Z) : string :=
  (yearString (YearFromTime t) ++ "-" ++ pad 2 (MonthFromTime t + 1) ++ "-"
   ++ pad 2 (DateFromTime t) ++ "T" ++ pad 2 (HourFromTime t) ++ ":"
   ++ pad 2 (MinFromTime t) ++ ":" ++ pad 2 (SecFromTime t) ++ "."
   ++ pad 3 (msFromTime t) ++ "Z")%string.

(** *** Reading the format back

    A reader for exactly the strings of the Date Time String Format that
    carry every field and the UTC designator.  It is the notion of a valid
    ISO-8601 timestamp used below: the fields must be in range for the
    proleptic Gregorian calendar, and the reader returns the time value
    the string denotes. *)

Definition digitValue (c : ascii) : option Z :=
  let n := Z.of_nat (nat_of_ascii c) in
  if (48 <=? n) && (n <=? 57) then Some (n - 48) else None.

Fixpoint readDigits (w : nat) (acc : Z) (s : string) : option (Z * string) :=
  match w with
  | O => Some (acc, s)
  | S w' =>
      match s with
      | String c s' =>
          match digitValue c with
          | Some d => readDigits w' (acc * 10 + d) s'
          | None => None
          end
      | EmptyString => None
      end
  end.

Definition readChar (c : ascii) (s : string) : option string :=
  match s with
  | String c' s' => if Ascii.eqb c c' then Some s' else None
  | EmptyString => None
  end.

(** Four digits, or a sign and six digits; "-000000" is not a year. *)
Definition readYear (s : string) : option (Z * string) :=
  match s with
  | String "+" s' => readDigits 6 0 s'
  | String "-" s' =>
      match readDigits 6 0 s' with
      | Some (y, r) => if y =? 0 then None else Some (- y, r)
      | None => None
      end
  | _ => readDigits 4 0 s
  end.

Definition leapDays (y : Z) : Z := if DaysInYear y =? 366 then 1 else 0.

(** Days of month [m] (0-based) in year [y]. *)
Definition DaysInMonth (y m : Z) : Z :=
  monthEnd (leapDays y) m - monthStart (leapDays y) m.

(** MakeDay, MakeTime and MakeDate of ECMA-262 on in-range fields. *)
Definition MakeDay (y m d : Z) : Z :=
  DayFromYear y + monthStart (leapDays y) m + d - 1.
Definition MakeTime (h mi sec ms : Z) : Z :=
  h * msPerHour + mi * msPerMinute + sec * msPerSecond + ms.
Definition MakeDate (day time : Z) : Z := day * msPerDay + time.

Record DateFields := mkFields {
  f_year : Z; f_month : Z; f_day : Z;
  f_hour : Z; f_minute : Z; f_second : Z; f_ms : Z
}.

Definition fieldsInRange (f : DateFields) : bool :=
  (1 <=? f_month f) && (f_month f <=? 12)
  && (1 <=? f_day f) && (f_day f <=? DaysInMonth (f_year f) (f_month f - 1))
  && (f_hour f <=? 23) && (f_minute f <=? 59) && (f_second f <=? 59).

Definition readFields (s : string) : option DateFields :=
  '(y, s) ← readYear s;
  s ← readChar "-" s;
  '(mo, s) ← readDigits 2 0 s;
  s ← readChar "-" s;
  '(d, s) ← readDigits 2 0 s;
  s ← readChar "T" s;
  '(h, s) ← readDigits 2 0 s;
  s ← readChar ":" s;
  '(mi, s) ← readDigits 2 0 s;
  s ← readChar ":" s;
  '(sec, s) ← readDigits 2 0 s;
  s ← readChar "." s;
  '(ms, s) ← readDigits 3 0 s;
  s ← readChar "Z" s;
  match s with
  | EmptyString => Some (mkFields y mo d h mi sec ms)
  | String _ _ => None
  end.

(** The fields [toISOString] prints. *)
Definition fieldsOf (t : Z) : DateFields :=
  mkFields (YearFromTime t) (MonthFromTime t + 1) (DateFromTime t)
           (HourFromTime t) (MinFromTime t) (SecFromTime t) (msFromTime t).

Definition timeOfFields (f : DateFields) : Z :=
  MakeDate (MakeDay (f_year f) (f_month f - 1) (f_day f))
           (MakeTime (f_hour f) (f_minute f) (f_second f) (f_ms f)).

(** The time value an ISO-8601 timestamp denotes, [None] when the string
    is not one. *)
Definition parseISO (s : string) : option Z :=
  f ← readFields s;
  if fieldsInRange f
     && (- maxTimeValue <=? timeOfFields f) && (timeOfFields f <=? maxTimeValue)
  then Some (timeOfFields f) else None.

Definition isISO8601 (s : string) : bool :=
  match parseISO s with Some _ => true | None => false end.

(** Time values whose year prints with four digits. *)
Definition fourDigitYear (t : Z) : Prop :=
  TimeFromYear 0 <= t < TimeFromYear 10000.

(** The first comparison that is not [Eq]. *)
Fixpoint lex (cs : list comparison) : comparison :=
  match cs with
  | [] => Eq
  | Eq :: cs' => lex cs'
  | c :: _ => c
  end.

(** Fields compared from the year down to the millisecond. *)
Definition compareFields (f g : DateFields) : comparison :=
  lex [f_year f ?= f_year g; f_month f ?= f_month g; f_day f ?= f_day g;
       f_hour f ?= f_hour g; f_minute f ?= f_minute g;
       f_second f ?= f_second g; f_ms f ?= f_ms g].

End JSDate.

(** ** The API client *)

Module Api.
Import JSDate.
Local Open Scope string_scope.
Local Open Scope Z_scope.

(** JavaScript values as far as the module handles them.  An object is the
    list of its own properties in creation order. *)
#[local] Set Warnings "-register-all".
Inductive value : Type :=
| VUndefined
| VNull
| VBool (b : bool)
| VNumber (n : Z)
| VString (s : string)
| VArray (items : list value)
| VObject (props : list (string * value)).

Fixpoint lookupProp (k : string) (ps : list (string * value)) : option value :=
  match ps with
  | [] => None
  | (k', v) :: ps' => if String.eqb k k' then Some v else lookupProp k ps'
  end.

(** [o.k]: a missing property reads as [undefined]. *)
Definition getProp (k : string) (o : value) : value :=
  match o with
  | VObject ps => match lookupProp k ps with Some v => v | None => VUndefined end
  | _ => VUndefined
  end.

(** [Object.keys(o)] *)
Definition keys (o : value) : list string :=
  match o with
  | VObject ps => map fst ps
  | _ => []
  end.

(** What [JSON.stringify] keeps of a value, which is what axios puts on the
    wire for an object body: a property whose value is [undefined] is left
    out, an [undefined] array element becomes [null]; [None] stands for a
    value that has no JSON text at all. *)
Fixpoint toJSON (v : value) : option value :=
  match v with
  | VUndefined => None
  | VArray items =>
      Some (VArray
        ((fix elems (l : list value) : list value :=
            match l with
            | [] => []
            | x :: l' =>
                match toJSON x with Some j => j | None => VNull end :: elems l'
            end) items))
  | VObject props =>
      Some (VObject
        ((fix fields (l : list (string * value)) : list (string * value) :=
            match l with
            | [] => []
            | (k, x) :: l' =>
                match toJSON x with
                | Some j => (k, j) :: fields l'
                | None => fields l'
                end
            end) props))
  | _ => Some v
  end.

Inductive Method := GET | POST | PUT | PATCH | DELETE.

(** The defaults an axios instance is created with. *)
Record AxiosDefaults := mkDefaults {
  baseURL : string;
  headers : list (string * string)
}.

(** One request as the instance hands it to the transport. *)
Record RequestConfig := mkRequest {
  req_method : Method;
  req_baseURL : string;
  req_url : string;
  req_headers : list (string * string);
  req_data : value
}.

Record Response := mkResponse {
  status : Z;
  data : value
}.

(** What the transport reports for a request: a reply with its status and
    decoded body, or no reply (connection refused, timeout, ...). *)
Inductive HttpOutcome :=
| Replied (r : Response)
| NoReply (code : string).

(** The rejection reason of a failed request. *)
Inductive AxiosError :=
| BadStatus (config : RequestConfig) (r : Response)
| NetworkError (config : RequestConfig) (code : string).

Fixpoint header (name : string) (hs : list (string * string)) : option string :=
  match hs with
  | [] => None
  | (n, v) :: hs' => if String.eqb name n then Some v else header name hs'
  end.

(** axios' default [validateStatus]. *)
Definition validateStatus (st : Z) : bool := (200 <=? st) && (st <? 300).

Definition settle (req : RequestConfig) (o : HttpOutcome) : Response + AxiosError :=
  match o with
  | Replied r => if validateStatus (status r) then inl r else inr (BadStatus req r)
  | NoReply code => inr (NetworkError req code)
  end.

(** The state the module's code can observe or change: the clock read by
    [new Date()], the lines written with [console.error], the requests handed
    to the transport, and the defaults object of the module-level instance. *)
Record World := mkWorld {
  now : Z;
  console : list (string * AxiosError);
  network : list RequestConfig;
  instance : AxiosDefaults
}.

(** How a JavaScript computation ends. *)
Inductive Completion (A : Type) : Type :=
| Return (a : A)
| Throw (e : AxiosError).
Arguments Return {A} a.
Arguments Throw {A} e.

Definition M (A : Type) : Type := World -> Completion A * World.

Definition ret {A} (a : A) : M A := fun w => (Return a, w).
Definition throw {A} (e : AxiosError) : M A := fun w => (Throw e, w).
Definition bind {A B} (m : M A) (k : A -> M B) : M B :=
  fun w =>
    match m w with
    | (Return a, w') => k a w'
    | (Throw e, w') => (Throw e, w')
    end.
Definition try_catch {A} (m : M A) (handler : AxiosError -> M A) : M A :=
  fun w =>
    match m w with
    | (Return a, w') => (Return a, w')
    | (Throw e, w') => handler e w'
    end.

#[export] Instance M_ret : MRet M := @ret.
#[export] Instance M_bind : MBind M := fun A B k m => bind m k.

(** [console.error(msg, e)] *)
Definition console_error (msg : string) (e : AxiosError) : M unit :=
  fun w => (Return tt,
            mkWorld (now w) (console w ++ [(msg, e)]) (network w) (instance w)).

(** [new Date().toISOString()] *)
Definition Date_toISOString : M string :=
  fun w => (Return (toISOString (now w)), w).

(** The request an instance builds for [post(url, data)], recorded on the
    network trace. *)
Definition dispatch (url : string) (body : value) (w : World) : RequestConfig * World :=
  let req := mkRequest POST (baseURL (instance w)) url (headers (instance w)) body in
  (req, mkWorld (now w) (console w) (network w ++ [req]) (instance w)).

Definition ofSettled (r : Response + AxiosError) : M Response :=
  match r with
  | inl resp => ret resp
  | inr e => throw e
  end.

(** How a settled request completes the call that awaited it. *)
Definition completionOf (r : Response + AxiosError) : Completion value :=
  match r with
  | inl resp => Return (data resp)
  | inr e => Throw e
  end.

(** The transport, seen from one call: the outcome of a request. *)
Definition Network := RequestConfig -> HttpOutcome.

(** [await api.post(url, data)] *)
Definition post (net : Network) (url : string) (body : value) : M Response :=
  fun w =>
    let (req, w') := dispatch url body w in
    ofSettled (settle req (net req)) w'.

(** The [i]-th argument of a call; a missing argument is [undefined]. *)
Definition arg (i : nat) (args : list value) : value := nth i args VUndefined.

Definition API_BASE_URL : string := "http://localhost:3002/api".

(** [axios.create({ baseURL, headers })] *)
Definition axios_create (cfg : AxiosDefaults) : AxiosDefaults := cfg.

Definition api : AxiosDefaults :=
  axios_create (mkDefaults API_BASE_URL [("Content-Type", "application/json")]).

(** The state right after the module is loaded at time [t]. *)
Definition loaded (t : Z) : World := mkWorld t [] [] api.

Definition interpretFailed : string := "获取占卜解读失败:".
Definition addTodoFailed : string := "添加待办事项失败:".

Definition getDivinationInterpretation (net : Network) (args : list value) : M value :=
  let matter := arg 0 args in
  let hexagram := arg 1 args in
  let lines := arg 2 args in
  try_catch
    (response ← post net "/divination/interpret"
                  (VObject [("matter", matter);
                            ("hexagram", hexagram);
                            ("lines", lines)]);
     mret (data response))
    (fun error =>
       console_error interpretFailed error;;
       throw error).

Definition addTodoItem (net : Network) (args : list value) : M value :=
  let title := arg 0 args in
  let description := arg 1 args in
  let hexagram := arg 2 args in
  try_catch
    (createdAt ← Date_toISOString;
     response ← post net "/todos"
                  (VObject [("title", title);
                            ("description", description);
                            ("hexagram", hexagram);
                            ("completed", VBool false);
                            ("createdAt", VString createdAt)]);
     mret (data response))
    (fun error =>
       console_error addTodoFailed error;;
       throw error).

(** Calls as the TypeScript signatures admit them. *)
Definition interpretArgs (matter hexagram : string) (lines : list string) : list value :=
  [VString matter; VString hexagram; VArray (map VString lines)].

Definition todoArgs (title description : string) (hexagram : option string) : list value :=
  match hexagram with
  | Some h => [VString title; VString description; VString h]
  | None => [VString title; VString description]
  end.

End Api.

(** ** Calls in flight

    An [async] function runs to its [await], where it hands the request to
    the transport and suspends; it is resumed when the transport settles
    that request.  Between the two, other calls may start and other requests
    may settle. *)

Module EventLoop.
Import JSDate Api.
Local Open Scope string_scope.
Local Open Scope Z_scope.

Inductive Operation := Interpret | AddTodo.

Definition call (op : Operation) : Network -> list value -> M value :=
  match op with
  | Interpret => getDivinationInterpretation
  | AddTodo => addTodoItem
  end.

Definition failureMessage (op : Operation) : string :=
  match op with
  | Interpret => interpretFailed
  | AddTodo => addTodoFailed
  end.

(** The part of a call before its [await]: the request it issues. *)
Definition callStart (op : Operation) (args : list value) (w : World)
  : RequestConfig * World :=
  match op with
  | Interpret =>
      dispatch "/divination/interpret"
        (VObject [("matter", arg 0 args);
                  ("hexagram", arg 1 args);
                  ("lines", arg 2 args)]) w
  | AddTodo =>
      dispatch "/todos"
        (VObject [("title", arg 0 args);
                  ("description", arg 1 args);
                  ("hexagram", arg 2 args);
                  ("completed", VBool false);
                  ("createdAt", VString (toISOString (now w)))]) w
  end.

(** The part after the [await], run with the settled request. *)
Definition callResume (op : Operation) (r : Response + AxiosError) : M value :=
  try_catch
    (response ← ofSettled r;
     mret (data response))
    (fun error =>
       console_error (failureMessage op) error;;
       throw error).

(** A call suspended at its [await]. *)
Record Suspended := mkSuspended {
  s_op : Operation;
  s_request : RequestConfig
}.

Record Sys := mkSys {
  world : World;
  pending : gmap nat Suspended;
  settled : gmap nat (Completion value);
  nextId : nat
}.

Inductive Event :=
| Invoke (op : Operation) (args : list value)
| Tick (dt : Z)
| Deliver (id : nat) (o : HttpOutcome).

Definition step (s : Sys) (e : Event) : Sys :=
  match e with
  | Invoke op args =>
      let (req, w) := callStart op args (world s) in
      mkSys w (<[nextId s := mkSuspended op req]> (pending s)) (settled s)
            (S (nextId s))
  | Tick dt =>
      let w := world s in
      mkSys (mkWorld (now w + dt) (console w) (network w) (instance w))
            (pending s) (settled s) (nextId s)
  | Deliver id o =>
      match pending s !! id with
      | Some c =>
          let (res, w) := callResume (s_op c) (settle (s_request c) o) (world s) in
          mkSys w (delete id (pending s)) (<[id := res]> (settled s)) (nextId s)
      | None => s
      end
  end.

Definition run (evs : list Event) (s : Sys) : Sys := fold_left step evs s.

(** The outcome the transport reports first for request [id]. *)
Fixpoint firstDelivery (id : nat) (evs : list Event) : option HttpOutcome :=
  match evs with
  | [] => None
  | Deliver id' o :: evs' =>
      if Nat.eqb id id' then Some o else firstDelivery id evs'
  | _ :: evs' => firstDelivery id evs'
  end.

(** The system right after the module is loaded. *)
Definition boot (t : Z) : Sys := mkSys (loaded t) ∅ ∅ 0.

(** A request as the loaded module issues it. *)
Definition moduleRequest (req : RequestConfig) : Prop :=
  req_method req = POST /\
  req_baseURL req = "http://localhost:3002/api" /\
  header "Content-Type" (req_headers req) = Some "application/json" /\
  header "Authorization" (req_headers req) = None /\
  (req_url req = "/divination/interpret" \/ req_url req = "/todos").

(** The number of calls made in a run. *)
Fixpoint invocations (evs : list Event) : nat :=
  match evs with
  | [] => O
  | Invoke _ _ :: evs' => S (invocations evs')
  | _ :: evs' => invocations evs'
  end.

Definition isThrow (r : Completion value) : bool :=
  match r with
  | Throw _ => true
  | Return _ => false
  end.

(** The number of completed calls that threw. *)
Definition failures (s : Sys) : nat :=
  size (filter (fun kv : nat * Completion value => isThrow (snd kv) = true)
               (settled s)).

(** Every identifier handed out so far names a call that is either
    suspended or completed, and none is both. *)
Definition accounted (s : Sys) : Prop :=
  (forall i, (i < nextId s)%nat <->
             is_Some (pending s !! i) \/ is_Some (settled s !! i)) /\
  (forall i, is_Some (pending s !! i) -> settled s !! i = None).

End EventLoop.

(** ** Facts about time values *)

Section DateFacts.
Import JSDate.
Local Open Scope Z_scope.

Lemma DayFromYear_succ y : DayFromYear (y + 1) = DayFromYear y + DaysInYear y.
Proof.
  unfold DayFromYear, DaysInYear.
  destruct (Z.eqb_spec (y mod 4) 0), (Z.eqb_spec (y mod 100) 0),
    (Z.eqb_spec (y mod 400) 0); simpl; Z.to_euclidean_division_equations; lia.
Qed.

(** [YearFromTime] is the year of ECMA-262: the one whose days contain the
    day of [t]. *)
Lemma YearFromTime_spec t :
  DayFromYear (YearFromTime t) <= Day t < DayFromYear (YearFromTime t + 1).
Proof.
  unfold YearFromTime. set (d := Day t). clearbody d. cbv zeta.
  destruct (Z.ltb_spec d (DayFromYear (1970 + 400 * d / 146097))) as [H1|H1].
  - replace (1970 + 400 * d / 146097 - 1 + 1) with (1970 + 400 * d / 146097) by lia.
    split; [|lia]. clear H1. unfold DayFromYear.
    Z.to_euclidean_division_equations; lia.
  - destruct (Z.leb_spec (DayFromYear (1970 + 400 * d / 146097 + 1)) d) as [H2|H2].
    + split; [lia|]. clear H1 H2. unfold DayFromYear.
      Z.to_euclidean_division_equations; lia.
    + lia.
Qed.

Lemma DayFromYear_mono y1 y2 : y1 <= y2 -> DayFromYear y1 <= DayFromYear y2.
Proof.
  intros H. unfold DayFromYear. Z.to_euclidean_division_equations; lia.
Qed.

(** It is the largest year that starts no later than [t]. *)
Lemma YearFromTime_largest t y :
  TimeFromYear y <= t <-> y <= YearFromTime t.
Proof.
  pose proof (YearFromTime_spec t) as [Hlo Hhi].
  unfold TimeFromYear, Day, msPerDay in *. split; intros H.
  - destruct (Z.le_gt_cases y (YearFromTime t)) as [|Hgt]; [done|].
    pose proof (DayFromYear_mono (YearFromTime t + 1) y ltac:(lia)).
    Z.to_euclidean_division_equations; lia.
  - pose proof (DayFromYear_mono y (YearFromTime t) H).
    Z.to_euclidean_division_equations; lia.
Qed.

Lemma InLeapYear_cases t :
  InLeapYear t = leapDays (YearFromTime t) /\
  (InLeapYear t = 0 \/ InLeapYear t = 1) /\
  DaysInYear (YearFromTime t) = 365 + InLeapYear t.
Proof.
  unfold InLeapYear, leapDays, DaysInYear.
  repeat case_match; simpl in *; lia.
Qed.

Lemma DayWithinYear_range t :
  0 <= DayWithinYear t < 365 + InLeapYear t.
Proof.
  pose proof (YearFromTime_spec t) as H.
  rewrite DayFromYear_succ in H.
  destruct (InLeapYear_cases t) as (_ & _ & Hd).
  unfold DayWithinYear. lia.
Qed.

Lemma MonthFromTime_range t : 0 <= MonthFromTime t <= 11.
Proof.
  unfold MonthFromTime. repeat case_match; lia.
Qed.

(** Month and day of the month locate the day within its year. *)
Lemma month_date_of_day t :
  1 <= DateFromTime t <= DaysInMonth (YearFromTime t) (MonthFromTime t) /\
  monthStart (InLeapYear t) (MonthFromTime t) + DateFromTime t - 1
    = DayWithinYear t.
Proof.
  pose proof (DayWithinYear_range t) as Hr.
  destruct (InLeapYear_cases t) as (Hl & Hc & _).
  unfold DaysInMonth. rewrite <- Hl. unfold DateFromTime, MonthFromTime.
  set (d := DayWithinYear t) in *. set (leap := InLeapYear t) in *.
  clearbody d leap. clear Hl.
  destruct Hc; subst leap;
    repeat match goal with
           | |- context [ if ?x <? ?y then _ else _ ] =>
               destruct (Z.ltb_spec x y)
           end; simpl;
    repeat match goal with
           | |- context [ monthStart ?a ?b ] =>
               let v := eval vm_compute in (monthStart a b) in
               change (monthStart a b) with v
           end; lia.
Qed.

Lemma MakeDay_of_time t :
  MakeDay (YearFromTime t) (MonthFromTime t) (DateFromTime t) = Day t.
Proof.
  destruct (month_date_of_day t) as [_ H].
  destruct (InLeapYear_cases t) as (Hl & _).
  unfold MakeDay. rewrite <- Hl. unfold DayWithinYear in H. lia.
Qed.

Lemma time_of_day_range t :
  0 <= HourFromTime t <= 23 /\ 0 <= MinFromTime t <= 59 /\
  0 <= SecFromTime t <= 59 /\ 0 <= msFromTime t <= 999.
Proof.
  unfold HourFromTime, MinFromTime, SecFromTime, msFromTime,
    msPerHour, msPerMinute, msPerSecond.
  Z.to_euclidean_division_equations; lia.
Qed.

Lemma MakeTime_of_time t :
  MakeTime (HourFromTime t) (MinFromTime t) (SecFromTime t) (msFromTime t)
    = TimeWithinDay t.
Proof.
  unfold MakeTime, TimeWithinDay, HourFromTime, MinFromTime, SecFromTime,
    msFromTime, msPerHour, msPerMinute, msPerSecond, msPerDay.
  Z.to_euclidean_division_equations; lia.
Qed.

Lemma timeOfFields_fieldsOf t : timeOfFields (fieldsOf t) = t.
Proof.
  unfold timeOfFields, fieldsOf; simpl.
  replace (MonthFromTime t + 1 - 1) with (MonthFromTime t) by lia.
  rewrite MakeDay_of_time, MakeTime_of_time.
  unfold MakeDate, Day, TimeWithinDay, msPerDay.
  Z.to_euclidean_division_equations; lia.
Qed.

Lemma fieldsInRange_fieldsOf t : fieldsInRange (fieldsOf t) = true.
Proof.
  pose proof (MonthFromTime_range t).
  destruct (month_date_of_day t) as [Hd _].
  pose proof (time_of_day_range t) as (? & ? & ? & ?).
  unfold fieldsInRange, fieldsOf; simpl.
  replace (MonthFromTime t + 1 - 1) with (MonthFromTime t) by lia.
  repeat (apply andb_true_intro; split); apply Z.leb_le; lia.
Qed.

Lemma YearFromTime_bounds t :
  validTime t -> -271821 <= YearFromTime t <= 275760.
Proof.
  unfold validTime, maxTimeValue. intros Ht.
  pose proof (YearFromTime_spec t) as H. revert H.
  unfold Day, msPerDay. generalize (YearFromTime t) as y. intros y.
  unfold DayFromYear. Z.to_euclidean_division_equations; lia.
Qed.

End DateFacts.

(** ** Facts about the printed format *)

Section FormatFacts.
Import JSDate.
Local Open Scope string_scope.
Local Open Scope Z_scope.

#[local] Arguments String.append !_ _ : simpl nomatch.

Lemma string_app_assoc (a b c : string) : (a ++ b) ++ c = a ++ (b ++ c).
Proof. induction a as [|x a IH]; cbn [append]; congruence. Qed.

Lemma digitValue_digit d : 0 <= d <= 9 -> digitValue (digit d) = Some d.
Proof.
  intros H.
  assert (d = 0 \/ d = 1 \/ d = 2 \/ d = 3 \/ d = 4 \/ d = 5 \/ d = 6
          \/ d = 7 \/ d = 8 \/ d = 9) as Hd by lia.
  repeat (destruct Hd as [-> | Hd]; [reflexivity|]). by subst.
Qed.

(** A digit is not a sign, so a year that starts with one is read as a
    four-digit year. *)
Lemma readYear_digit d s :
  0 <= d <= 9 ->
  readYear (String (digit d) s) = readDigits 4 0 (String (digit d) s).
Proof.
  intros H.
  assert (d = 0 \/ d = 1 \/ d = 2 \/ d = 3 \/ d = 4 \/ d = 5 \/ d = 6
          \/ d = 7 \/ d = 8 \/ d = 9) as Hd by lia.
  repeat (destruct Hd as [-> | Hd]; [reflexivity|]). by subst.
Qed.

Lemma readDigits_pad_more w : forall k n acc rest,
  0 <= n < 10 ^ Z.of_nat w ->
  readDigits (w + k) acc (pad w n ++ rest)
    = readDigits k (acc * 10 ^ Z.of_nat w + n) rest.
Proof.
  induction w as [|w IH]; intros k n acc rest Hn.
  - simpl in *. f_equal. lia.
  - rewrite Nat2Z.inj_succ, Z.pow_succ_r in * by lia.
    cbn [pad]. rewrite string_app_assoc. cbn [append].
    replace (S w + k)%nat with (w + S k)%nat by lia.
    rewrite IH by (Z.to_euclidean_division_equations; lia).
    cbn [readDigits]. rewrite digitValue_digit
      by (Z.to_euclidean_division_equations; lia).
    f_equal. Z.to_euclidean_division_equations; lia.
Qed.

Lemma readDigits_pad w n rest :
  0 <= n < 10 ^ Z.of_nat w ->
  readDigits w 0 (pad w n ++ rest) = Some (n, rest).
Proof.
  intros Hn. pose proof (readDigits_pad_more w 0 n 0 rest Hn) as H.
  rewrite Nat.add_0_r in H. rewrite H. simpl. f_equal. 
Qed.

Ltac digits_range :=
  match goal with
  | |- _ <= _ < 10 ^ Z.of_nat ?w =>
      let v := eval vm_compute in (10 ^ Z.of_nat w) in
      change (10 ^ Z.of_nat w) with v; lia
  end.

Lemma readYear_yearString y rest :
  -999999 <= y <= 999999 ->
  readYear (yearString y ++ rest) = Some (y, rest).
Proof.
  intros Hy. unfold yearString.
  destruct (Z.leb_spec 0 y) as [H0|H0]; cbn [andb].
  - destruct (Z.leb_spec y 9999) as [H1|H1].
    + rewrite <- (readDigits_pad 4 y rest) by digits_range.
      cbn [pad]. rewrite !string_app_assoc. cbn [append].
      apply readYear_digit. Z.to_euclidean_division_equations; lia.
    + change (readDigits 6 0 (pad 6 y ++ rest) = Some (y, rest)).
      apply readDigits_pad. digits_range.
  - change (match readDigits 6 0 (pad 6 (- y) ++ rest) with
            | Some (y', r) => if y' =? 0 then None else Some (- y', r)
            | None => None
            end = Some (y, rest)).
    rewrite readDigits_pad by digits_range.
    destruct (Z.eqb_spec (- y) 0); [lia|]. f_equal. f_equal. lia.
Qed.

Lemma readChar_cons c rest : readChar c (String c rest) = Some rest.
Proof. unfold readChar. by rewrite Ascii.eqb_refl. Qed.

Lemma DaysInMonth_le y m : 0 <= m <= 11 -> DaysInMonth y m <= 31.
Proof.
  intros Hm. unfold DaysInMonth, leapDays.
  assert (m = 0 \/ m = 1 \/ m = 2 \/ m = 3 \/ m = 4 \/ m = 5 \/ m = 6
          \/ m = 7 \/ m = 8 \/ m = 9 \/ m = 10 \/ m = 11) as Hc by lia.
  destruct (DaysInYear y =? 366);
    repeat (destruct Hc as [-> | Hc]; [by vm_compute|]); subst; by vm_compute.
Qed.

Lemma readFields_toISOString t :
  validTime t -> readFields (toISOString t) = Some (fieldsOf t).
Proof.
  intros Ht.
  pose proof (YearFromTime_bounds t Ht).
  pose proof (MonthFromTime_range t).
  pose proof (month_date_of_day t) as [Hd _].
  pose proof (time_of_day_range t) as (? & ? & ? & ?).
  pose proof (DaysInMonth_le (YearFromTime t) (MonthFromTime t) ltac:(lia)).
  unfold toISOString, readFields.
  rewrite readYear_yearString by lia.
  cbn [mbind option_bind append]. rewrite readChar_cons.
  repeat (cbn [mbind option_bind append];
          rewrite readDigits_pad by digits_range;
          cbn [mbind option_bind append]; rewrite readChar_cons).
  reflexivity.
Qed.

(** Reading a printed time value gives the time value back. *)
Lemma parseISO_toISOString t :
  validTime t -> parseISO (toISOString t) = Some t.
Proof.
  intros Ht. unfold parseISO.
  rewrite readFields_toISOString by done. cbn.
  rewrite fieldsInRange_fieldsOf, timeOfFields_fieldsOf.
  unfold validTime in Ht.
  destruct (Z.leb_spec (- maxTimeValue) t); [|lia].
  destruct (Z.leb_spec t maxTimeValue); [|lia]. reflexivity.
Qed.

Example toISOString_epoch : toISOString 0 = "1970-01-01T00:00:00.000Z".
Proof. reflexivity. Qed.

Example toISOString_before_epoch :
  toISOString (-1) = "1969-12-31T23:59:59.999Z".
Proof. reflexivity. Qed.

Example toISOString_leap_day :
  toISOString 951782400000 = "2000-02-29T00:00:00.000Z".
Proof. reflexivity. Qed.

Example toISOString_no_leap_day_in_2100 :
  toISOString 4107456000000 = "2100-02-28T00:00:00.000Z" /\
  toISOString 4107542400000 = "2100-03-01T00:00:00.000Z".
Proof. split; reflexivity. Qed.

Example toISOString_year_10000 :
  toISOString 253402300799999 = "9999-12-31T23:59:59.999Z" /\
  toISOString 253402300800000 = "+010000-01-01T00:00:00.000Z".
Proof. split; reflexivity. Qed.

Example toISOString_extremes :
  toISOString maxTimeValue = "+275760-09-13T00:00:00.000Z" /\
  toISOString (- maxTimeValue) = "-271821-04-20T00:00:00.000Z".
Proof. split; reflexivity. Qed.

Example parseISO_rejects :
  parseISO "2026-02-29T00:00:00.000Z" = None /\
  parseISO "2026-13-01T00:00:00.000Z" = None /\
  parseISO "2026-11-02T24:00:00.000Z" = None /\
  parseISO "2026-11-02T04:27:00.000" = None /\
  parseISO "2026-11-2T04:27:00.000Z" = None /\
  parseISO "-000000-01-01T00:00:00.000Z" = None.
Proof. repeat split. Qed.

End FormatFacts.

(** ** Facts about the client *)

Section ClientFacts.
Import JSDate Api EventLoop.
Local Open Scope string_scope.
Local Open Scope Z_scope.

(** Each exported function is its part before the [await] followed by its
    part after it. *)
Lemma call_split op net args w :
  call op net args w
  = callResume op (settle (fst (callStart op args w))
                          (net (fst (callStart op args w))))
               (snd (callStart op args w)).
Proof. destruct op; reflexivity. Qed.

Lemma callResume_result op r w : fst (callResume op r w) = completionOf r.
Proof. destruct r; reflexivity. Qed.

Lemma callResume_success op resp w :
  callResume op (inl resp) w = (Return (data resp), w).
Proof. reflexivity. Qed.

Lemma callResume_failure op e w :
  callResume op (inr e) w
  = (Throw e, mkWorld (now w) (console w ++ [(failureMessage op, e)])%list
                      (network w) (instance w)).
Proof. reflexivity. Qed.

Lemma callStart_network op args w :
  network (snd (callStart op args w))
  = (network w ++ [fst (callStart op args w)])%list.
Proof. destruct op; reflexivity. Qed.

Lemma callStart_frame op args w :
  now (snd (callStart op args w)) = now w /\
  console (snd (callStart op args w)) = console w /\
  instance (snd (callStart op args w)) = instance w.
Proof. destruct op; repeat split. Qed.

Lemma callResume_frame op r w :
  now (snd (callResume op r w)) = now w /\
  network (snd (callResume op r w)) = network w /\
  instance (snd (callResume op r w)) = instance w.
Proof. destruct r; repeat split. Qed.

Lemma toJSON_strings (l : list string) :
  toJSON (VArray (map VString l)) = Some (VArray (map VString l)).
Proof.
  simpl. do 2 f_equal. induction l as [|x l IH]; simpl; [done | by rewrite IH].
Qed.

(** A request is rejected exactly when the transport gave no reply or the
    reply's status is outside 200..299. *)
Lemma settle_rejects req o e :
  settle req o = inr e <->
  (exists code, o = NoReply code /\ e = NetworkError req code) \/
  (exists r, o = Replied r /\ validateStatus (status r) = false
             /\ e = BadStatus req r).
Proof.
  unfold settle. split.
  - destruct o as [r|code].
    + destruct (validateStatus (status r)) eqn:E; [done|].
      intros [= <-]. right. by exists r.
    + intros [= <-]. left. by exists code.
  - intros [(code & -> & ->) | (r & -> & E & ->)]; [done|]. by rewrite E.
Qed.

Example addTodoItem_refused :
  addTodoItem (fun _ => NoReply "ECONNREFUSED") (todoArgs "a" "b" None) (loaded 0)
  = (Throw (NetworkError
              (mkRequest POST "http://localhost:3002/api" "/todos"
                 [("Content-Type", "application/json")]
                 (VObject [("title", VString "a"); ("description", VString "b");
                           ("hexagram", VUndefined); ("completed", VBool false);
                           ("createdAt", VString "1970-01-01T00:00:00.000Z")]))
              "ECONNREFUSED"),
     mkWorld 0
       [("添加待办事项失败:",
         NetworkError
           (mkRequest POST "http://localhost:3002/api" "/todos"
              [("Content-Type", "application/json")]
              (VObject [("title", VString "a"); ("description", VString "b");
                        ("hexagram", VUndefined); ("completed", VBool false);
                        ("createdAt", VString "1970-01-01T00:00:00.000Z")]))
           "ECONNREFUSED")]
       [mkRequest POST "http://localhost:3002/api" "/todos"
          [("Content-Type", "application/json")]
          (VObject [("title", VString "a"); ("description", VString "b");
                    ("hexagram", VUndefined); ("completed", VBool false);
                    ("createdAt", VString "1970-01-01T00:00:00.000Z")])]
       api).
Proof. reflexivity. Qed.

Example getDivinationInterpretation_ok :
  getDivinationInterpretation
    (fun _ => Replied (mkResponse 200 (VObject [("result", VString "ok")])))
    (interpretArgs "" "qian" []) (loaded 0)
  = (Return (VObject [("result", VString "ok")]),
     mkWorld 0 []
       [mkRequest POST "http://localhost:3002/api" "/divination/interpret"
          [("Content-Type", "application/json")]
          (VObject [("matter", VString ""); ("hexagram", VString "qian");
                    ("lines", VArray [])])]
       api).
Proof. reflexivity. Qed.

Example toJSON_drops_undefined :
  toJSON (VObject [("title", VString "a"); ("hexagram", VUndefined);
                   ("tags", VArray [VUndefined; VNumber 1])])
  = Some (VObject [("title", VString "a");
                   ("tags", VArray [VNull; VNumber 1])]).
Proof. reflexivity. Qed.

Lemma call_network op net args w :
  network (snd (call op net args w))
  = (network w ++ [fst (callStart op args w)])%list.
Proof.
  rewrite call_split.
  destruct (callResume_frame op
    (settle (fst (callStart op args w)) (net (fst (callStart op args w))))
    (snd (callStart op args w))) as (_ & -> & _).
  apply callStart_network.
Qed.

Lemma call_instance op net args w :
  instance (snd (call op net args w)) = instance w.
Proof.
  rewrite call_split.
  destruct (callResume_frame op
    (settle (fst (callStart op args w)) (net (fst (callStart op args w))))
    (snd (callStart op args w))) as (_ & _ & ->).
  apply callStart_frame.
Qed.

(** *** The event loop *)

Lemma step_instance s e : instance (world (step s e)) = instance (world s).
Proof.
  destruct e as [op args|dt|id o]; simpl.
  - pose proof (callStart_frame op args (world s)) as (_ & _ & H).
    destruct (callStart op args (world s)); simpl in *. done.
  - done.
  - destruct (pending s !! id) as [c|]; [|done].
    pose proof (callResume_frame (s_op c) (settle (s_request c) o) (world s))
      as (_ & _ & H).
    destruct (callResume _ _ _); simpl in *. done.
Qed.

Lemma run_instance evs : forall s,
  instance (world (run evs s)) = instance (world s).
Proof.
  induction evs as [|e evs IH]; intros s; simpl; [done|].
  unfold run in IH. rewrite IH. apply step_instance.
Qed.

Lemma callStart_moduleRequest op args w :
  instance w = api -> moduleRequest (fst (callStart op args w)).
Proof.
  intros H. destruct op; simpl; rewrite H; repeat split; auto.
Qed.

Lemma step_requests s e :
  instance (world s) = api ->
  Forall moduleRequest (network (world s)) ->
  Forall moduleRequest (network (world (step s e))).
Proof.
  intros Hi Hn. destruct e as [op args|dt|id o]; simpl.
  - pose proof (callStart_network op args (world s)) as H.
    pose proof (callStart_moduleRequest op args (world s) Hi) as Hm.
    destruct (callStart op args (world s)); simpl in *. rewrite H.
    apply Forall_app. split; [done|]. by constructor.
  - done.
  - destruct (pending s !! id) as [c|]; [|done].
    pose proof (callResume_frame (s_op c) (settle (s_request c) o) (world s))
      as (_ & H & _).
    destruct (callResume _ _ _); simpl in *. by rewrite H.
Qed.

Lemma run_requests evs : forall s,
  instance (world s) = api ->
  Forall moduleRequest (network (world s)) ->
  Forall moduleRequest (network (world (run evs s))).
Proof.
  induction evs as [|e evs IH]; intros s Hi Hn; simpl; [done|].
  apply IH; [by rewrite step_instance | by apply step_requests].
Qed.

Lemma step_nextId s e : (nextId s <= nextId (step s e))%nat.
Proof.
  destruct e as [op args|dt|id o]; simpl.
  - destruct (callStart op args (world s)); simpl. lia.
  - done.
  - destruct (pending s !! id) as [c|]; [|done].
    destruct (callResume _ _ _); simpl. done.
Qed.

(** A call that is no longer suspended keeps its result: its identifier is
    never handed out again. *)
Lemma settled_stable evs : forall s i,
  (i < nextId s)%nat ->
  pending s !! i = None ->
  settled (run evs s) !! i = settled s !! i.
Proof.
  induction evs as [|e evs IH]; intros s i Hi Hp; simpl; [done|].
  pose proof (step_nextId s e) as Hn.
  destruct e as [op args|dt|id o]; simpl in *.
  - destruct (callStart op args (world s)) as [req w'] eqn:E; simpl in *.
    rewrite IH; simpl; [done | lia |].
    rewrite lookup_insert_ne by lia. done.
  - rewrite IH; simpl; done.
  - destruct (pending s !! id) as [c|] eqn:Ec; [|by apply IH].
    destruct (callResume _ _ _) as [res w'] eqn:E; simpl in *.
    assert (id <> i) by congruence.
    rewrite IH; simpl; [by rewrite lookup_insert_ne | lia |].
    by rewrite lookup_delete_ne.
Qed.

(** A suspended call completes with the first outcome reported for its own
    request, whatever else happens before or after. *)
Lemma suspended_completes evs : forall s i c o,
  (i < nextId s)%nat ->
  pending s !! i = Some c ->
  firstDelivery i evs = Some o ->
  settled (run evs s) !! i = Some (completionOf (settle (s_request c) o)).
Proof.
  induction evs as [|e evs IH]; intros s i c o Hi Hp Hd; simpl in *; [done|].
  pose proof (step_nextId s e) as Hn.
  destruct e as [op args|dt|id o']; simpl in *.
  - destruct (callStart op args (world s)) as [req w'] eqn:E; simpl in *.
    apply IH; simpl; [lia | | done].
    rewrite lookup_insert_ne by lia. done.
  - apply IH; simpl; done.
  - destruct (Nat.eqb_spec i id) as [->|Hne].
    + injection Hd as ->. rewrite Hp in *.
      pose proof (callResume_result (s_op c) (settle (s_request c) o) (world s))
        as Hr.
      destruct (callResume _ _ _) as [res w'] eqn:E; simpl in *. subst res.
      rewrite settled_stable; simpl;
        [by rewrite lookup_insert_eq | lia | by rewrite lookup_delete_eq].
    + destruct (pending s !! id) as [c'|] eqn:Ec; [|by apply IH].
      destruct (callResume _ _ _) as [res w'] eqn:E; simpl in *.
      apply IH; simpl; [lia | | done].
      by rewrite lookup_delete_ne.
Qed.

Lemma call_alone op o args w :
  fst (call op (fun _ => o) args w)
  = completionOf (settle (fst (callStart op args w)) o).
Proof. rewrite call_split. apply callResume_result. Qed.

End ClientFacts.

(** ** The specification's claims *)

Section Claims.
Import JSDate Api EventLoop.
Local Open Scope string_scope.
Local Open Scope Z_scope.

(** C1: for every matter, hexagram and lines, the empty string and the empty
    list included, the one request [getDivinationInterpretation] sends
    carries exactly the object {matter, hexagram, lines} with the argument
    values as given: these three properties and no other, both in the object
    handed to the instance and in its JSON text. *)
Theorem interpretation_body_is_the_arguments net matter hexagram lines w :
  exists req,
    network (snd (getDivinationInterpretation net
                    (interpretArgs matter hexagram lines) w))
    = (network w ++ [req])%list /\
    req_data req = VObject [("matter", VString matter);
                            ("hexagram", VString hexagram);
                            ("lines", VArray (map VString lines))] /\
    keys (req_data req) = ["matter"; "hexagram"; "lines"] /\
    toJSON (req_data req)
    = Some (VObject [("matter", VString matter);
                     ("hexagram", VString hexagram);
                     ("lines", VArray (map VString lines))]).
Proof.
  exists (fst (callStart Interpret (interpretArgs matter hexagram lines) w)).
  split; [apply (call_network Interpret)|].
  repeat split. cbn [callStart dispatch fst req_data interpretArgs arg nth].
  pose proof (toJSON_strings lines) as H. simpl in *.
  injection H as H. by rewrite H.
Qed.

(** C2: for every title and description, [addTodoItem] called without the
    hexagram argument sends a payload whose [hexagram] is [undefined] in the
    object and absent from its JSON text, whose [completed] is [false], and
    whose [createdAt] is the ISO-8601 text of the clock at the call: a valid
    timestamp that reads back as exactly that time. *)
Theorem todo_without_hexagram net title description w :
  validTime (now w) ->
  exists req wire createdAt,
    network (snd (addTodoItem net (todoArgs title description None) w))
    = (network w ++ [req])%list /\
    getProp "hexagram" (req_data req) = VUndefined /\
    toJSON (req_data req) = Some (VObject wire) /\
    lookupProp "hexagram" wire = None /\
    getProp "completed" (req_data req) = VBool false /\
    getProp "createdAt" (req_data req) = VString createdAt /\
    createdAt = toISOString (now w) /\
    isISO8601 createdAt = true /\
    parseISO createdAt = Some (now w).
Proof.
  intros Ht.
  exists (fst (callStart AddTodo (todoArgs title description None) w)).
  eexists. exists (toISOString (now w)).
  split; [apply (call_network AddTodo)|].
  pose proof (parseISO_toISOString (now w) Ht) as Hp.
  unfold isISO8601. rewrite Hp.
  repeat split; reflexivity.
Qed.

Lemma todo_without_hexagram_witness :
  exists req wire createdAt,
    network (snd (addTodoItem (fun _ => NoReply "ECONNREFUSED")
                    (todoArgs "read" "the judgment" None)
                    (loaded 1793593620123)))
    = (network (loaded 1793593620123) ++ [req])%list /\
    getProp "hexagram" (req_data req) = VUndefined /\
    toJSON (req_data req) = Some (VObject wire) /\
    lookupProp "hexagram" wire = None /\
    getProp "completed" (req_data req) = VBool false /\
    getProp "createdAt" (req_data req) = VString createdAt /\
    createdAt = toISOString (now (loaded 1793593620123)) /\
    isISO8601 createdAt = true /\
    parseISO createdAt = Some (now (loaded 1793593620123)).
Proof.
  apply (todo_without_hexagram (fun _ => NoReply "ECONNREFUSED")
           "read" "the judgment" (loaded 1793593620123)).
  unfold validTime, maxTimeValue. simpl. lia.
Defined.

(** C3: for every title, description and hexagram, the payload [addTodoItem]
    sends has [hexagram] equal to the given string, in the object and in its
    JSON text, and still has [completed = false] and a [createdAt] printed
    from the client's clock at the call. *)
Theorem todo_with_hexagram net title description hexagram w :
  exists req wire,
    network (snd (addTodoItem net (todoArgs title description (Some hexagram)) w))
    = (network w ++ [req])%list /\
    getProp "hexagram" (req_data req) = VString hexagram /\
    toJSON (req_data req) = Some (VObject wire) /\
    lookupProp "hexagram" wire = Some (VString hexagram) /\
    getProp "completed" (req_data req) = VBool false /\
    getProp "createdAt" (req_data req) = VString (toISOString (now w)).
Proof.
  exists (fst (callStart AddTodo (todoArgs title description (Some hexagram)) w)).
  eexists.
  split; [apply (call_network AddTodo)|].
  repeat split; reflexivity.
Qed.

(** C4: whenever the request of either operation is answered with a success
    status, the operation returns the decoded body of that response as it
    is, and does nothing else: nothing is logged, and the only trace is the
    one request. *)
Theorem success_returns_body_unchanged op net args w r :
  net (fst (callStart op args w)) = Replied r ->
  validateStatus (status r) = true ->
  call op net args w = (Return (data r), snd (callStart op args w)).
Proof.
  intros Hn Hs. rewrite call_split, Hn. simpl. rewrite Hs.
  apply callResume_success.
Qed.

Lemma success_returns_body_unchanged_witness :
  call AddTodo (fun _ => Replied (mkResponse 200 (VObject [("result", VString "ok")])))
       (todoArgs "a" "b" None) (loaded 0)
  = (Return (VObject [("result", VString "ok")]),
     snd (callStart AddTodo (todoArgs "a" "b" None) (loaded 0))).
Proof.
  apply (success_returns_body_unchanged AddTodo
           (fun _ => Replied (mkResponse 200 (VObject [("result", VString "ok")])))
           (todoArgs "a" "b" None) (loaded 0)
           (mkResponse 200 (VObject [("result", VString "ok")])));
    reflexivity.
Defined.

(** C5: whenever the request of either operation fails, by a transport
    error or by a non-success status, the operation writes its own fixed
    message together with the failure to the console, once, and throws that
    same failure.  It does not return a value, and it sends no second
    request. *)
Theorem failure_is_logged_and_rethrown op net args w e :
  settle (fst (callStart op args w)) (net (fst (callStart op args w))) = inr e ->
  fst (call op net args w) = Throw e /\
  console (snd (call op net args w))
  = (console w ++ [(failureMessage op, e)])%list /\
  network (snd (call op net args w))
  = (network w ++ [fst (callStart op args w)])%list.
Proof.
  intros He. split; [|split].
  - rewrite call_split, He. reflexivity.
  - rewrite call_split, He, callResume_failure. simpl.
    by destruct (callStart_frame op args w) as (_ & -> & _).
  - apply call_network.
Qed.

Lemma failure_is_logged_and_rethrown_witness :
  fst (call Interpret (fun _ => Replied (mkResponse 500 VNull))
         (interpretArgs "" "qian" []) (loaded 0))
  = Throw (BadStatus (fst (callStart Interpret (interpretArgs "" "qian" []) (loaded 0)))
                     (mkResponse 500 VNull)) /\
  console (snd (call Interpret (fun _ => Replied (mkResponse 500 VNull))
                  (interpretArgs "" "qian" []) (loaded 0)))
  = (console (loaded 0)
     ++ [(failureMessage Interpret,
          BadStatus (fst (callStart Interpret (interpretArgs "" "qian" []) (loaded 0)))
                    (mkResponse 500 VNull))])%list /\
  network (snd (call Interpret (fun _ => Replied (mkResponse 500 VNull))
                  (interpretArgs "" "qian" []) (loaded 0)))
  = (network (loaded 0)
     ++ [fst (callStart Interpret (interpretArgs "" "qian" []) (loaded 0))])%list.
Proof.
  apply (failure_is_logged_and_rethrown Interpret
           (fun _ => Replied (mkResponse 500 VNull))
           (interpretArgs "" "qian" []) (loaded 0)).
  reflexivity.
Defined.

(** C6: in every state the loaded module can reach, the request either
    operation issues is a POST against the base URL
    http://localhost:3002/api whose only header is
    Content-Type: application/json, to /divination/interpret for the
    interpretation and to /todos for the todo; and every request on the
    network trace is of that kind, with no Authorization header. *)
Theorem requests_are_posts_to_the_fixed_backend t evs op net args :
  (exists body,
     network (snd (call op net args (world (run evs (boot t)))))
     = (network (world (run evs (boot t)))
        ++ [mkRequest POST "http://localhost:3002/api"
              match op with
              | Interpret => "/divination/interpret"
              | AddTodo => "/todos"
              end
              [("Content-Type", "application/json")] body])%list) /\
  Forall moduleRequest
    (network (snd (call op net args (world (run evs (boot t)))))).
Proof.
  assert (instance (world (run evs (boot t))) = api) as Hi
    by (by rewrite run_instance).
  split.
  - exists (req_data (fst (callStart op args (world (run evs (boot t)))))).
    rewrite call_network. f_equal. f_equal.
    destruct op; simpl; rewrite Hi; reflexivity.
  - rewrite call_network. apply Forall_app. split.
    + apply run_requests; [done | constructor].
    + constructor; [|constructor]. by apply callStart_moduleRequest.
Qed.

(** C7: the configured client is never written.  Neither operation, on
    success or on failure, changes the instance's defaults; so after any
    sequence of calls, clock ticks and settled requests the defaults are
    what they were, and from the loaded module they are the base URL and
    Content-Type header of its [axios.create]. *)
Theorem configuration_is_read_only :
  (forall op net args w, instance (snd (call op net args w)) = instance w) /\
  (forall evs s, instance (world (run evs s)) = instance (world s)) /\
  (forall t evs,
     instance (world (run evs (boot t)))
     = mkDefaults "http://localhost:3002/api"
                  [("Content-Type", "application/json")]).
Proof.
  split; [|split].
  - intros. apply call_instance.
  - intros. apply run_instance.
  - intros. by rewrite run_instance.
Qed.

(** C8: two calls in flight at once do not interfere.  When two calls are
    made one after the other and the events that follow, in any order and
    mixed with any other calls, ticks and deliveries, report outcome [oa]
    first for the first request and [ob] first for the second, then each
    call completes with exactly what it would have completed with had it run
    alone against a transport answering its own outcome. *)
Theorem concurrent_calls_do_not_interfere s opa argsa opb argsb evs oa ob :
  firstDelivery (nextId s) evs = Some oa ->
  firstDelivery (S (nextId s)) evs = Some ob ->
  settled (run (Invoke opa argsa :: Invoke opb argsb :: evs) s) !! nextId s
  = Some (fst (call opa (fun _ => oa) argsa (world s))) /\
  settled (run (Invoke opa argsa :: Invoke opb argsb :: evs) s) !! S (nextId s)
  = Some (fst (call opb (fun _ => ob) argsb
                 (world (step s (Invoke opa argsa))))).
Proof.
  intros Ha Hb. rewrite !call_alone. split.
  - change (run (Invoke opa argsa :: Invoke opb argsb :: evs) s)
      with (run (Invoke opb argsb :: evs) (step s (Invoke opa argsa))).
    simpl step. destruct (callStart opa argsa (world s)) as [req w'] eqn:E.
    simpl fst.
    apply (suspended_completes _ _ _ (mkSuspended opa req)); simpl.
    + lia.
    + by rewrite lookup_insert_eq.
    + done.
  - change (run (Invoke opa argsa :: Invoke opb argsb :: evs) s)
      with (run evs (step (step s (Invoke opa argsa)) (Invoke opb argsb))).
    assert (nextId (step s (Invoke opa argsa)) = S (nextId s)) as Hn.
    { simpl. by destruct (callStart opa argsa (world s)). }
    rewrite <- Hn in *.
    generalize dependent (step s (Invoke opa argsa)). intros s1 Hb Hn.
    simpl step. destruct (callStart opb argsb (world s1)) as [req w'] eqn:E.
    simpl fst.
    apply (suspended_completes _ _ _ (mkSuspended opb req)); simpl.
    + lia.
    + by rewrite lookup_insert_eq.
    + done.
Qed.

Lemma concurrent_calls_do_not_interfere_witness :
  settled (run [Invoke Interpret (interpretArgs "m" "h" ["old yang"]);
                Invoke AddTodo (todoArgs "t" "d" None);
                Deliver 1 (NoReply "ETIMEDOUT");
                Tick 40;
                Deliver 0 (Replied (mkResponse 200 (VString "auspicious")))]
               (boot 0)) !! nextId (boot 0)
  = Some (fst (call Interpret
                 (fun _ => Replied (mkResponse 200 (VString "auspicious")))
                 (interpretArgs "m" "h" ["old yang"]) (world (boot 0)))) /\
  settled (run [Invoke Interpret (interpretArgs "m" "h" ["old yang"]);
                Invoke AddTodo (todoArgs "t" "d" None);
                Deliver 1 (NoReply "ETIMEDOUT");
                Tick 40;
                Deliver 0 (Replied (mkResponse 200 (VString "auspicious")))]
               (boot 0)) !! S (nextId (boot 0))
  = Some (fst (call AddTodo (fun _ => NoReply "ETIMEDOUT")
                 (todoArgs "t" "d" None)
                 (world (step (boot 0)
                          (Invoke Interpret (interpretArgs "m" "h" ["old yang"])))))).
Proof.
  apply (concurrent_calls_do_not_interfere (boot 0)
           Interpret (interpretArgs "m" "h" ["old yang"])
           AddTodo (todoArgs "t" "d" None)
           [Deliver 1 (NoReply "ETIMEDOUT"); Tick 40;
            Deliver 0 (Replied (mkResponse 200 (VString "auspicious")))]);
    reflexivity.
Defined.

(** C9: for every title, description and optional hexagram, the object
    [addTodoItem] builds has exactly the five properties title, description,
    hexagram, completed and createdAt, each once and in this order; it has
    no id, user or priority property. *)
Theorem todo_payload_has_five_keys net title description hexagram w :
  exists req,
    network (snd (addTodoItem net (todoArgs title description hexagram) w))
    = (network w ++ [req])%list /\
    keys (req_data req)
    = ["title"; "description"; "hexagram"; "completed"; "createdAt"] /\
    getProp "id" (req_data req) = VUndefined /\
    getProp "user" (req_data req) = VUndefined /\
    getProp "priority" (req_data req) = VUndefined.
Proof.
  exists (fst (callStart AddTodo (todoArgs title description hexagram) w)).
  split; [apply (call_network AddTodo)|].
  destruct hexagram; repeat split; reflexivity.
Qed.

(** C10: for every title and description, passing [undefined] as the
    hexagram is the same call as leaving the argument out: from the same
    state, hence the same clock, both issue the same request, with the same
    path, the same payload and the same JSON text, and end alike. *)
Theorem explicit_undefined_is_omitted net title description w :
  callStart AddTodo [VString title; VString description; VUndefined] w
  = callStart AddTodo (todoArgs title description None) w /\
  toJSON (req_data (fst (callStart AddTodo
            [VString title; VString description; VUndefined] w)))
  = toJSON (req_data (fst (callStart AddTodo
            (todoArgs title description None) w))) /\
  addTodoItem net [VString title; VString description; VUndefined] w
  = addTodoItem net (todoArgs title description None) w.
Proof. repeat split. Qed.

End Claims.

(** ** Further facts about calls and runs *)

Section RunFacts.
Import JSDate Api EventLoop.
Local Open Scope string_scope.
Local Open Scope Z_scope.

Lemma step_network_length s e :
  length (network (world (step s e)))
  = (length (network (world s)) + invocations [e])%nat.
Proof.
  destruct e as [op args|dt|id o]; simpl.
  - pose proof (callStart_network op args (world s)) as H.
    destruct (callStart op args (world s)); simpl in *.
    rewrite H, length_app. simpl. lia.
  - lia.
  - destruct (pending s !! id) as [c|]; [|lia].
    pose proof (callResume_frame (s_op c) (settle (s_request c) o) (world s))
      as (_ & H & _).
    destruct (callResume _ _ _); simpl in *. rewrite H. lia.
Qed.

(** Every invocation puts exactly one request on the network, whatever the
    arguments and whatever becomes of earlier requests: nothing is retried,
    merged with an equal request in flight, or answered without asking. *)
Theorem one_request_per_invocation evs : forall s,
  length (network (world (run evs s)))
  = (length (network (world s)) + invocations evs)%nat.
Proof.
  induction evs as [|e evs IH]; intros s; simpl; [lia|].
  unfold run in IH. rewrite IH, step_network_length.
  destruct e; simpl; lia.
Qed.

Lemma step_accounted s e : accounted s -> accounted (step s e).
Proof.
  intros [H1 H2]. destruct e as [op args|dt|id o]; simpl.
  - destruct (callStart op args (world s)) as [req w']. split; simpl; intros i.
    + destruct (decide (i = nextId s)) as [->|Hne].
      * rewrite lookup_insert_eq. split; [eauto | lia].
      * rewrite lookup_insert_ne by done. rewrite <- H1. lia.
    + destruct (decide (i = nextId s)) as [->|Hne].
      * intros _. destruct (settled s !! nextId s) eqn:E; [|done].
        assert (nextId s < nextId s)%nat; [|lia]. apply H1. eauto.
      * rewrite lookup_insert_ne by done. apply H2.
  - split; simpl; [apply H1 | apply H2].
  - destruct (pending s !! id) as [c|] eqn:Ec; [|by split].
    destruct (callResume _ _ _) as [res w']. split; simpl; intros i.
    + destruct (decide (i = id)) as [->|Hne].
      * rewrite lookup_delete_eq, lookup_insert_eq.
        split; [eauto|]. intros _. apply H1. eauto.
      * rewrite lookup_delete_ne, lookup_insert_ne by done. apply H1.
    + destruct (decide (i = id)) as [->|Hne].
      * rewrite lookup_delete_eq. by intros [? ?].
      * rewrite lookup_delete_ne, lookup_insert_ne by done. apply H2.
Qed.


Lemma boot_accounted t : accounted (boot t).
Proof.
  split; simpl; intros i.
  - rewrite !lookup_empty. split; [lia|]. by intros [[? ?]|[? ?]].
  - by rewrite lookup_empty.
Qed.



Lemma failures_insert s i r :
  settled s !! i = None ->
  size (filter (fun kv : nat * Completion value => isThrow (snd kv) = true)
               (<[i := r]> (settled s)))
  = (failures s + if isThrow r then 1 else 0)%nat.
Proof.
  intros Hs. unfold failures. destruct (isThrow r) eqn:E.
  - rewrite map_filter_insert_True by done.
    rewrite map_size_insert_None; [lia|].
    apply map_lookup_filter_None. by left.
  - rewrite map_filter_insert_False by (simpl; congruence).
    rewrite delete_id by done. lia.
Qed.

Lemma step_failures s e :
  accounted s ->
  length (console (world s)) = failures s ->
  length (console (world (step s e))) = failures (step s e).
Proof.
  intros [H1 H2] Hc. destruct e as [op args|dt|id o]; simpl.
  - pose proof (callStart_frame op args (world s)) as (_ & H & _).
    destruct (callStart op args (world s)); simpl in *. by rewrite H.
  - done.
  - destruct (pending s !! id) as [c|] eqn:Ec; [|done].
    assert (settled s !! id = None) as Hs by (apply H2; eauto).
    destruct (settle (s_request c) o) as [resp|err] eqn:Es.
    + rewrite callResume_success. unfold failures at 1. simpl.
      rewrite failures_insert by done. simpl. lia.
    + rewrite callResume_failure. unfold failures at 1. simpl.
      rewrite failures_insert by done. rewrite length_app. simpl. lia.
Qed.

(** From the loaded module on, the console holds one line for each call
    that threw and nothing else: under any interleaving a failure is
    logged exactly once, and a call that returned logs nothing. *)
Theorem console_counts_the_failures t evs :
  length (console (world (run evs (boot t)))) = failures (run evs (boot t)).
Proof.
  assert (forall evs s, accounted s ->
            length (console (world s)) = failures s ->
            length (console (world (run evs s))) = failures (run evs s)) as H.
  { clear. induction evs as [|e evs IH]; intros s Ha Hc; simpl; [done|].
    apply IH; [by apply step_accounted | by apply step_failures]. }
  apply H; [apply boot_accounted|]. unfold failures. simpl.
  by rewrite map_filter_empty, map_size_empty.
Qed.




(** Only the first three arguments of a call matter, and a missing one
    counts as [undefined]: two argument lists that agree on these three
    positions give the same call, with the same request, result and log. *)
Theorem only_three_arguments_matter op net args1 args2 w :
  arg 0 args1 = arg 0 args2 ->
  arg 1 args1 = arg 1 args2 ->
  arg 2 args1 = arg 2 args2 ->
  call op net args1 w = call op net args2 w.
Proof.
  intros H0 H1 H2. rewrite !call_split.
  assert (callStart op args1 w = callStart op args2 w) as ->; [|done].
  destruct op; simpl; by rewrite H0, H1, H2.
Qed.

Lemma only_three_arguments_matter_witness :
  call Interpret (fun _ => NoReply "ECONNRESET")
       [VString "m"; VString "h"; VArray []; VNumber 7; VNull] (loaded 0)
  = call Interpret (fun _ => NoReply "ECONNRESET")
         [VString "m"; VString "h"; VArray []] (loaded 0).
Proof.
  apply (only_three_arguments_matter Interpret (fun _ => NoReply "ECONNRESET")
           [VString "m"; VString "h"; VArray []; VNumber 7; VNull]
           [VString "m"; VString "h"; VArray []] (loaded 0));
    reflexivity.
Defined.



End RunFacts.

(** ** Further facts about timestamps *)

Section TimestampFacts.
Import JSDate Api EventLoop.
Local Open Scope string_scope.
Local Open Scope Z_scope.

#[local] Arguments String.append !_ _ : simpl nomatch.

Lemma fourDigitYear_year t : fourDigitYear t <-> 0 <= YearFromTime t <= 9999.
Proof.
  unfold fourDigitYear.
  pose proof (YearFromTime_largest t 0).
  pose proof (YearFromTime_largest t 10000). lia.
Qed.

Lemma compareFields_antisym f g :
  compareFields f g = CompOpp (compareFields g f).
Proof.
  unfold compareFields. simpl.
  rewrite (Z.compare_antisym (f_year f)), (Z.compare_antisym (f_month f)),
    (Z.compare_antisym (f_day f)), (Z.compare_antisym (f_hour f)),
    (Z.compare_antisym (f_minute f)), (Z.compare_antisym (f_second f)),
    (Z.compare_antisym (f_ms f)).
  repeat (match goal with
          | |- context [ CompOpp (?a ?= ?b) ] => destruct (a ?= b)
          end; simpl; try reflexivity).
Qed.

Lemma MonthFromTime_mono t1 t2 :
  InLeapYear t1 = InLeapYear t2 ->
  DayWithinYear t1 <= DayWithinYear t2 ->
  MonthFromTime t1 <= MonthFromTime t2.
Proof.
  intros Hl Hd. unfold MonthFromTime. rewrite Hl.
  set (d1 := DayWithinYear t1) in *. set (d2 := DayWithinYear t2) in *.
  set (leap := InLeapYear t2) in *. clearbody d1 d2 leap.
  repeat match goal with
         | |- context [ if ?x <? ?y then _ else _ ] =>
             destruct (Z.ltb_spec x y)
         end; lia.
Qed.

(** An earlier time value has the smaller fields, read from the year
    down. *)
Lemma compareFields_lt t1 t2 :
  t1 < t2 -> compareFields (fieldsOf t1) (fieldsOf t2) = Lt.
Proof.
  intros Hlt. unfold compareFields, fieldsOf. cbn [f_year f_month f_day
    f_hour f_minute f_second f_ms lex].
  assert (YearFromTime t1 <= YearFromTime t2) as Hy.
  { apply YearFromTime_largest.
    pose proof (proj2 (YearFromTime_largest t1 (YearFromTime t1)) ltac:(lia)).
    lia. }
  destruct (Z.compare_spec (YearFromTime t1) (YearFromTime t2)) as [Ey|?|?];
    [|done|lia].
  assert (Day t1 <= Day t2) as Hday
    by (unfold Day, msPerDay; Z.to_euclidean_division_equations; lia).
  assert (InLeapYear t1 = InLeapYear t2) as Hl
    by (unfold InLeapYear; by rewrite Ey).
  assert (DayWithinYear t1 <= DayWithinYear t2) as Hd
    by (unfold DayWithinYear; rewrite Ey; lia).
  pose proof (MonthFromTime_mono t1 t2 Hl Hd) as Hm.
  destruct (Z.compare_spec (MonthFromTime t1 + 1) (MonthFromTime t2 + 1))
    as [Em|?|?]; [|done|lia].
  pose proof (month_date_of_day t1) as [_ Hd1].
  pose proof (month_date_of_day t2) as [_ Hd2].
  assert (MonthFromTime t1 = MonthFromTime t2) as Em' by lia.
  rewrite Hl, Em' in Hd1.
  destruct (Z.compare_spec (DateFromTime t1) (DateFromTime t2))
    as [Ed|?|?]; [|done|lia].
  assert (Day t1 = Day t2) as Eday
    by (unfold DayWithinYear in *; rewrite Ey in *; lia).
  clear - Hlt Eday. revert Eday.
  unfold Day, HourFromTime, MinFromTime, SecFromTime, msFromTime,
    msPerDay, msPerHour, msPerMinute, msPerSecond. intros Eday.
  destruct (Z.compare_spec ((t1 / 3600000) mod 24) ((t2 / 3600000) mod 24))
    as [Eh|?|?]; [|done|exfalso; Z.to_euclidean_division_equations; lia].
  destruct (Z.compare_spec ((t1 / 60000) mod 60) ((t2 / 60000) mod 60))
    as [Emi|?|?]; [|done|exfalso; Z.to_euclidean_division_equations; lia].
  destruct (Z.compare_spec ((t1 / 1000) mod 60) ((t2 / 1000) mod 60))
    as [Es|?|?]; [|done|exfalso; Z.to_euclidean_division_equations; lia].
  destruct (Z.compare_spec (t1 mod 1000) (t2 mod 1000))
    as [Ems|?|?]; [|done|]; exfalso; Z.to_euclidean_division_equations; lia.
Qed.

Lemma compareFields_time t1 t2 :
  compareFields (fieldsOf t1) (fieldsOf t2) = (t1 ?= t2).
Proof.
  destruct (Z.compare_spec t1 t2) as [->|H|H].
  - unfold compareFields. simpl. by rewrite !Z.compare_refl.
  - by apply compareFields_lt.
  - rewrite compareFields_antisym, compareFields_lt by done. reflexivity.
Qed.

Lemma compare_digit a b :
  0 <= a <= 9 -> 0 <= b <= 9 -> Ascii.compare (digit a) (digit b) = (a ?= b).
Proof.
  intros Ha Hb.
  assert (a = 0 \/ a = 1 \/ a = 2 \/ a = 3 \/ a = 4 \/ a = 5 \/ a = 6
          \/ a = 7 \/ a = 8 \/ a = 9) as Ca by lia.
  assert (b = 0 \/ b = 1 \/ b = 2 \/ b = 3 \/ b = 4 \/ b = 5 \/ b = 6
          \/ b = 7 \/ b = 8 \/ b = 9) as Cb by lia.
  repeat (destruct Ca as [-> | Ca]);
    repeat (destruct Cb as [-> | Cb]); subst; reflexivity.
Qed.

Lemma compare_cons c r1 r2 :
  (String c r1 ?= String c r2)%string = (r1 ?= r2)%string.
Proof.
  cbn [String.compare]. unfold Ascii.compare. by rewrite N.compare_refl.
Qed.

(** Zero-padded numbers of one width compare as strings the way they
    compare as numbers. *)
Lemma compare_pad w : forall a b r1 r2,
  0 <= a < 10 ^ Z.of_nat w ->
  0 <= b < 10 ^ Z.of_nat w ->
  (pad w a ++ r1 ?= pad w b ++ r2)%string
  = match a ?= b with Eq => (r1 ?= r2)%string | c => c end.
Proof.
  induction w as [|w IH]; intros a b r1 r2 Ha Hb.
  - simpl in *. assert (a = 0) as -> by lia. assert (b = 0) as -> by lia.
    reflexivity.
  - rewrite Nat2Z.inj_succ, Z.pow_succ_r in * by lia.
    cbn [pad]. rewrite !string_app_assoc. cbn [append].
    rewrite IH by (Z.to_euclidean_division_equations; lia).
    cbn [String.compare].
    rewrite compare_digit by (Z.to_euclidean_division_equations; lia).
    destruct (Z.compare_spec (a / 10) (b / 10)),
      (Z.compare_spec (a mod 10) (b mod 10)),
      (Z.compare_spec a b);
      try reflexivity; exfalso; Z.to_euclidean_division_equations; lia.
Qed.

Lemma length_string_app (a b : string) :
  String.length (a ++ b) = (String.length a + String.length b)%nat.
Proof. induction a as [|x a IH]; cbn [append String.length plus]; congruence. Qed.

Lemma length_pad w n : String.length (pad w n) = w.
Proof.
  revert n. induction w as [|w IH]; intros n; [done|].
  cbn [pad]. rewrite length_string_app, IH. simpl. lia.
Qed.

Lemma toISOString_fourDigit t :
  fourDigitYear t ->
  toISOString t
  = pad 4 (YearFromTime t) ++ String "-" (pad 2 (MonthFromTime t + 1)
    ++ String "-" (pad 2 (DateFromTime t) ++ String "T" (pad 2 (HourFromTime t)
    ++ String ":" (pad 2 (MinFromTime t) ++ String ":" (pad 2 (SecFromTime t)
    ++ String "." (pad 3 (msFromTime t) ++ "Z")))))).
Proof.
  intros H. apply fourDigitYear_year in H. unfold toISOString, yearString.
  destruct (Z.leb_spec 0 (YearFromTime t)); [|lia].
  destruct (Z.leb_spec (YearFromTime t) 9999); [|lia]. reflexivity.
Qed.

Ltac fits_width :=
  match goal with
  | |- _ <= _ < 10 ^ Z.of_nat ?w =>
      let v := eval vm_compute in (10 ^ Z.of_nat w) in
      change (10 ^ Z.of_nat w) with v; lia
  end.

Lemma compare_toISOString_fields t1 t2 :
  fourDigitYear t1 -> fourDigitYear t2 ->
  (toISOString t1 ?= toISOString t2)%string
  = compareFields (fieldsOf t1) (fieldsOf t2).
Proof.
  intros H1 H2. rewrite !toISOString_fourDigit by done.
  apply fourDigitYear_year in H1, H2.
  pose proof (MonthFromTime_range t1). pose proof (MonthFromTime_range t2).
  pose proof (month_date_of_day t1) as [? _].
  pose proof (month_date_of_day t2) as [? _].
  pose proof (DaysInMonth_le (YearFromTime t1) (MonthFromTime t1) ltac:(lia)).
  pose proof (DaysInMonth_le (YearFromTime t2) (MonthFromTime t2) ltac:(lia)).
  pose proof (time_of_day_range t1) as (? & ? & ? & ?).
  pose proof (time_of_day_range t2) as (? & ? & ? & ?).
  unfold compareFields, fieldsOf.
  cbn [f_year f_month f_day f_hour f_minute f_second f_ms lex].
  repeat (rewrite compare_pad by fits_width;
          match goal with
          | |- match ?c with _ => _ end = match ?c with _ => _ end =>
              destruct c; [|reflexivity|reflexivity]
          end;
          rewrite ?compare_cons).
  reflexivity.
Qed.

(** Within the years 0 to 9999 the timestamps order as the times do:
    comparing two [createdAt] strings character by character gives the
    order of the clock readings they were printed from. *)
Theorem createdAt_sorts_by_time args1 args2 w1 w2 s1 s2 :
  fourDigitYear (now w1) -> fourDigitYear (now w2) ->
  getProp "createdAt" (req_data (fst (callStart AddTodo args1 w1))) = VString s1 ->
  getProp "createdAt" (req_data (fst (callStart AddTodo args2 w2))) = VString s2 ->
  (s1 ?= s2)%string = (now w1 ?= now w2).
Proof.
  intros H1 H2 E1 E2. injection E1 as <-. injection E2 as <-.
  rewrite compare_toISOString_fields by done. apply compareFields_time.
Qed.

Lemma createdAt_sorts_by_time_witness :
  ("2026-11-02T04:27:00.123Z" ?= "2026-11-02T04:27:00.124Z")%string
  = (now (loaded 1793593620123) ?= now (loaded 1793593620124)).
Proof.
  apply (createdAt_sorts_by_time (todoArgs "a" "b" None) (todoArgs "c" "d" None)
           (loaded 1793593620123) (loaded 1793593620124));
    try reflexivity; unfold fourDigitYear; vm_compute; split; congruence.
Defined.

(** The order is lost past the year 9999, where the year is printed with a
    sign and six digits. *)
Example createdAt_order_breaks_in_year_10000 :
  253402300799999 < 253402300800000 /\
  (toISOString 253402300799999 ?= toISOString 253402300800000)%string = Gt.
Proof. split; [lia | reflexivity]. Qed.

(** Two todos created at different milliseconds carry different
    [createdAt] strings. *)
Theorem createdAt_tells_times_apart args1 args2 w1 w2 :
  validTime (now w1) -> validTime (now w2) ->
  getProp "createdAt" (req_data (fst (callStart AddTodo args1 w1)))
  = getProp "createdAt" (req_data (fst (callStart AddTodo args2 w2))) ->
  now w1 = now w2.
Proof.
  intros H1 H2 E. injection E as E.
  pose proof (parseISO_toISOString (now w1) H1) as P1.
  pose proof (parseISO_toISOString (now w2) H2) as P2.
  rewrite E in P1. congruence.
Qed.

Lemma createdAt_tells_times_apart_witness :
  now (loaded 1793593620123) = now (loaded 1793593620123).
Proof.
  apply (createdAt_tells_times_apart (todoArgs "a" "b" None)
           (todoArgs "c" "d" (Some "qian"))
           (loaded 1793593620123) (loaded 1793593620123));
    try reflexivity; unfold validTime, maxTimeValue; simpl; lia.
Defined.

(** A [createdAt] has 24 characters while the clock's year has four
    digits, and 27 otherwise. *)
Theorem createdAt_length args w s :
  getProp "createdAt" (req_data (fst (callStart AddTodo args w))) = VString s ->
  String.length s
  = if (TimeFromYear 0 <=? now w) && (now w <? TimeFromYear 10000)
    then 24%nat else 27%nat.
Proof.
  intros E. injection E as <-. set (t := now w). clearbody t.
  pose proof (fourDigitYear_year t) as Hy. unfold fourDigitYear in Hy.
  unfold toISOString. rewrite !length_string_app, !length_pad.
  unfold yearString.
  destruct (Z.leb_spec (TimeFromYear 0) t), (Z.ltb_spec t (TimeFromYear 10000)),
    (Z.leb_spec 0 (YearFromTime t)), (Z.leb_spec (YearFromTime t) 9999);
    cbn [andb]; try lia;
    cbn [String.length]; rewrite ?length_pad; reflexivity.
Qed.

Lemma createdAt_length_witness :
  String.length "2026-11-02T04:27:00.123Z"
  = if (TimeFromYear 0 <=? now (loaded 1793593620123))
       && (now (loaded 1793593620123) <? TimeFromYear 10000)
    then 24%nat else 27%nat.
Proof.
  apply (createdAt_length (todoArgs "a" "b" None) (loaded 1793593620123)).
  reflexivity.
Defined.

End TimestampFacts.

(** ** Runs with any number of calls *)

Section ManyCalls.
Import JSDate Api EventLoop.
Local Open Scope string_scope.
Local Open Scope Z_scope.

Lemma run_app evs1 evs2 s : run (evs1 ++ evs2)%list s = run evs2 (run evs1 s).
Proof. unfold run. apply fold_left_app. Qed.

(** Wherever a call is made in a run, among any number of other calls
    before, around and after it, it completes with what it would have
    completed with alone, from the state it was made in, against a
    transport giving the outcome first reported for its own request. *)
Theorem any_call_completes_with_its_own_outcome s before op args after o :
  firstDelivery (nextId (run before s)) after = Some o ->
  settled (run (before ++ Invoke op args :: after)%list s)
    !! nextId (run before s)
  = Some (fst (call op (fun _ => o) args (world (run before s)))).
Proof.
  intros Hd. rewrite run_app, call_alone.
  generalize dependent (run before s). clear s before. intros s Hd.
  change (run (Invoke op args :: after) s)
    with (run after (step s (Invoke op args))).
  simpl step. destruct (callStart op args (world s)) as [req w']. simpl fst.
  apply (suspended_completes _ _ _ (mkSuspended op req)); simpl;
    [lia | by rewrite lookup_insert_eq | done].
Qed.

Lemma any_call_completes_with_its_own_outcome_witness :
  settled (run ([Invoke Interpret (interpretArgs "a" "h1" []);
                 Invoke Interpret (interpretArgs "b" "h2" []);
                 Deliver 0 (NoReply "ECONNRESET")]
                ++ Invoke AddTodo (todoArgs "t" "d" (Some "h1"))
                   :: [Invoke Interpret (interpretArgs "c" "h3" []);
                       Deliver 3 (Replied (mkResponse 404 VNull));
                       Deliver 2 (Replied (mkResponse 201 (VString "made")));
                       Deliver 1 (Replied (mkResponse 200 (VString "read")))])%list
               (boot 0))
    !! nextId (run [Invoke Interpret (interpretArgs "a" "h1" []);
                    Invoke Interpret (interpretArgs "b" "h2" []);
                    Deliver 0 (NoReply "ECONNRESET")] (boot 0))
  = Some (fst (call AddTodo (fun _ => Replied (mkResponse 201 (VString "made")))
                 (todoArgs "t" "d" (Some "h1"))
                 (world (run [Invoke Interpret (interpretArgs "a" "h1" []);
                              Invoke Interpret (interpretArgs "b" "h2" []);
                              Deliver 0 (NoReply "ECONNRESET")] (boot 0))))).
Proof.
  apply (any_call_completes_with_its_own_outcome (boot 0)
           [Invoke Interpret (interpretArgs "a" "h1" []);
            Invoke Interpret (interpretArgs "b" "h2" []);
            Deliver 0 (NoReply "ECONNRESET")]
           AddTodo (todoArgs "t" "d" (Some "h1"))
           [Invoke Interpret (interpretArgs "c" "h3" []);
            Deliver 3 (Replied (mkResponse 404 VNull));
            Deliver 2 (Replied (mkResponse 201 (VString "made")));
            Deliver 1 (Replied (mkResponse 200 (VString "read")))]).
  reflexivity.
Defined.

Lemma step_traces_grow s e :
  network (world s) `prefix_of` network (world (step s e)) /\
  console (world s) `prefix_of` console (world (step s e)).
Proof.
  destruct e as [op args|dt|id o]; simpl.
  - pose proof (callStart_network op args (world s)) as Hn.
    pose proof (callStart_frame op args (world s)) as (_ & Hc & _).
    destruct (callStart op args (world s)); simpl in *.
    rewrite Hn, Hc. split; [by apply prefix_app_r | done].
  - done.
  - destruct (pending s !! id) as [c|]; [|done].
    destruct (settle (s_request c) o) as [resp|err].
    + rewrite callResume_success. done.
    + rewrite callResume_failure. simpl. split; [done | by apply prefix_app_r].
Qed.

(** Both traces only grow: no run removes or rewrites a request already
    sent or a line already logged. *)
Theorem traces_only_grow evs : forall s,
  network (world s) `prefix_of` network (world (run evs s)) /\
  console (world s) `prefix_of` console (world (run evs s)).
Proof.
  induction evs as [|e evs IH]; intros s; simpl; [done|].
  destruct (step_traces_grow s e) as [Hn Hc].
  destruct (IH (step s e)) as [Hn' Hc'].
  split; etrans; eauto.
Qed.

End ManyCalls.
